(** * nitme: an analyzer that flags [x := []T{}] and suggests [var x []T]

    Shallow embedding of [nitme.go] (package [nitme]) together with the
    parts of [go/token], [go/ast], [fmt], [golang.org/x/tools/go/analysis]
    and [golang.org/x/tools/go/ast/inspector] that the analyzer calls.

    Go values are modelled as follows.
    - [token.Pos] is an [int]: a [Z].
    - a Go [string] and a [[]byte] are sequences of bytes: a Rocq [string].
    - an interface value of type [ast.Expr] is a value of the inductive type
      [ast.Expr]; a field documented as "or nil" is an [option].
    - a slice that the program compares with [nil] ([CompositeLit.Elts]) is
      an [option (list _)], [None] being the nil slice; a slice that is only
      indexed is a [list].
    - the analyzer runs against a [*analysis.Pass]; the pass carries the
      inspector (the syntax tree, flattened in traversal order) and the
      diagnostics handed to [pass.Report] so far.
    - a run-time panic (index out of range, failed type assertion) ends the
      computation with [Panicked]; the state reached so far is kept, as the
      diagnostics already reported stay reported. *)

From Stdlib Require Import ZArith List String Ascii Bool Lia.
Import ListNotations.
Open Scope string_scope.
Open Scope Z_scope.

(* ===================================================================== *)
(** ** go/token *)

Module token.

Definition Pos := Z.

(** The tokens that may appear in [AssignStmt.Tok]. *)
Inductive Token :=
| ASSIGN          (* =   *)
| DEFINE          (* :=  *)
| ADD_ASSIGN      (* +=  *)
| SUB_ASSIGN      (* -=  *)
| MUL_ASSIGN      (* *=  *)
| QUO_ASSIGN      (* /=  *)
| REM_ASSIGN      (* %=  *)
| AND_ASSIGN      (* &=  *)
| OR_ASSIGN       (* |=  *)
| XOR_ASSIGN      (* ^=  *)
| SHL_ASSIGN      (* <<= *)
| SHR_ASSIGN      (* >>= *)
| AND_NOT_ASSIGN. (* &^= *)

End token.

(* ===================================================================== *)
(** ** Run-time panics and the result of a computation *)

Inductive RuntimeError :=
| IndexOutOfRange (index : Z) (length : nat)
    (* "index out of range [index] with length length" *)
| InterfaceConversion (iface dynamic asserted : string).
    (* "interface conversion: iface is dynamic, not asserted" *)

Inductive Result (A : Type) :=
| Returned (a : A)
| Panicked (e : RuntimeError).
Arguments Returned {A} a.
Arguments Panicked {A} e.

(** [s[i]] on a slice: panics when [i] is out of range. *)
Definition index {A} (s : list A) (i : Z) : Result A :=
  if i <? 0 then Panicked (IndexOutOfRange i (List.length s))
  else match nth_error s (Z.to_nat i) with
       | Some x => Returned x
       | None => Panicked (IndexOutOfRange i (List.length s))
       end.

(* ===================================================================== *)
(** ** go/ast *)

Module ast.

(** The expression nodes. [BadExpr] carries its own span. The remaining
    expression kinds of [go/ast] are, like [CallExpr] or [StarExpr], neither
    [*ast.Ident], [*ast.CompositeLit] nor [*ast.ArrayType]. *)
#[warnings="-register-all"] Inductive Expr :=
| BadExpr (From To : token.Pos)
| Ident (NamePos : token.Pos) (Name : string)
| BasicLit (ValuePos : token.Pos) (Value : string)
| CompositeLit (Type_ : option Expr) (Lbrace : token.Pos)
               (Elts : option (list Expr)) (Rbrace : token.Pos)
| SelectorExpr (X : Expr) (SelPos : token.Pos) (SelName : string)
| IndexExpr (X : Expr) (Lbrack : token.Pos) (Index : Expr) (Rbrack : token.Pos)
| CallExpr (Fun : Expr) (Lparen : token.Pos) (Args : list Expr) (Rparen : token.Pos)
| StarExpr (Star : token.Pos) (X : Expr)
| ArrayType (Lbrack : token.Pos) (Len : option Expr) (Elt : Expr)
| MapType (Map : token.Pos) (Key Value : Expr).

(** The dynamic type of an [ast.Expr] interface value, as a panic prints it. *)
Definition Expr_typeName (e : Expr) : string :=
  match e with
  | BadExpr _ _ => "*ast.BadExpr"
  | Ident _ _ => "*ast.Ident"
  | BasicLit _ _ => "*ast.BasicLit"
  | CompositeLit _ _ _ _ => "*ast.CompositeLit"
  | SelectorExpr _ _ _ => "*ast.SelectorExpr"
  | IndexExpr _ _ _ _ => "*ast.IndexExpr"
  | CallExpr _ _ _ _ => "*ast.CallExpr"
  | StarExpr _ _ => "*ast.StarExpr"
  | ArrayType _ _ _ => "*ast.ArrayType"
  | MapType _ _ _ => "*ast.MapType"
  end.

Definition len (s : string) : Z := Z.of_nat (String.length s).

(** [Pos()] of an expression: the position of its first character. *)
Fixpoint Expr_Pos (e : Expr) : token.Pos :=
  match e with
  | BadExpr from _ => from
  | Ident namePos _ => namePos
  | BasicLit valuePos _ => valuePos
  | CompositeLit (Some ty) _ _ _ => Expr_Pos ty
  | CompositeLit None lbrace _ _ => lbrace
  | SelectorExpr x _ _ => Expr_Pos x
  | IndexExpr x _ _ _ => Expr_Pos x
  | CallExpr f _ _ _ => Expr_Pos f
  | StarExpr star _ => star
  | ArrayType lbrack _ _ => lbrack
  | MapType map _ _ => map
  end.

(** [End()] of an expression: the position just after its last character. *)
Fixpoint Expr_End (e : Expr) : token.Pos :=
  match e with
  | BadExpr _ to => to
  | Ident namePos name => namePos + len name
  | BasicLit valuePos value => valuePos + len value
  | CompositeLit _ _ _ rbrace => rbrace + 1
  | SelectorExpr _ selPos selName => selPos + len selName
  | IndexExpr _ _ _ rbrack => rbrack + 1
  | CallExpr _ _ _ rparen => rparen + 1
  | StarExpr _ x => Expr_End x
  | ArrayType _ _ elt => Expr_End elt
  | MapType _ _ value => Expr_End value
  end.

(** The structs behind the three pointer types the analyzer asserts. *)
Record IdentT := { Ident_NamePos : token.Pos; Ident_Name : string }.

Record CompositeLitT := {
  CompositeLit_Type : option Expr;         (* literal type; or nil *)
  CompositeLit_Lbrace : token.Pos;
  CompositeLit_Elts : option (list Expr);  (* list of composite elements; or nil *)
  CompositeLit_Rbrace : token.Pos
}.

Record ArrayTypeT := {
  ArrayType_Lbrack : token.Pos;
  ArrayType_Len : option Expr;  (* Ellipsis node for [...]T array types, nil for slice types *)
  ArrayType_Elt : Expr
}.

Record AssignStmt := {
  Lhs : list Expr;
  TokPos : token.Pos;  (* position of Tok *)
  Tok : token.Token;   (* assignment token, DEFINE *)
  Rhs : list Expr
}.

(** The nodes the traversal hands out. A [DeclStmt] is kept by the span of
    its declaration; every expression is a node too. *)
Inductive Node :=
| N_AssignStmt (s : AssignStmt)
| N_DeclStmt (declPos declEnd : token.Pos)
| N_ExprStmt (X : Expr)
| N_Expr (e : Expr).

Definition Node_typeName (n : Node) : string :=
  match n with
  | N_AssignStmt _ => "*ast.AssignStmt"
  | N_DeclStmt _ _ => "*ast.DeclStmt"
  | N_ExprStmt _ => "*ast.ExprStmt"
  | N_Expr e => Expr_typeName e
  end.

(** [func (s *AssignStmt) Pos() token.Pos { return s.Lhs[0].Pos() }] *)
Definition AssignStmt_Pos (s : AssignStmt) : Result token.Pos :=
  match index (Lhs s) 0 with
  | Returned e => Returned (Expr_Pos e)
  | Panicked err => Panicked err
  end.

(** [func (s *AssignStmt) End() token.Pos { return s.Rhs[len(s.Rhs)-1].End() }] *)
Definition AssignStmt_End (s : AssignStmt) : Result token.Pos :=
  match index (Rhs s) (Z.of_nat (List.length (Rhs s)) - 1) with
  | Returned e => Returned (Expr_End e)
  | Panicked err => Panicked err
  end.

Definition Node_Pos (n : Node) : Result token.Pos :=
  match n with
  | N_AssignStmt s => AssignStmt_Pos s
  | N_DeclStmt declPos _ => Returned declPos
  | N_ExprStmt x => Returned (Expr_Pos x)
  | N_Expr e => Returned (Expr_Pos e)
  end.

Definition Node_End (n : Node) : Result token.Pos :=
  match n with
  | N_AssignStmt s => AssignStmt_End s
  | N_DeclStmt _ declEnd => Returned declEnd
  | N_ExprStmt x => Returned (Expr_End x)
  | N_Expr e => Returned (Expr_End e)
  end.

End ast.

(* ===================================================================== *)
(** ** fmt *)

Module fmt.

(** The operands left over when the format is exhausted, as [Sprintf]
    prints them: [string=a, string=b]. *)
Fixpoint extra (args : list string) : string :=
  match args with
  | [] => ""
  | [a] => "string=" ++ a
  | a :: rest => "string=" ++ a ++ ", " ++ extra rest
  end.

(** [fmt.Sprintf] over string operands, for formats whose only verbs are
    [%s] and [%%]: each [%s] is replaced by the next operand, a missing
    operand prints as [%!s(MISSING)], operands left over are listed
    after the text. *)
Fixpoint Sprintf (format : string) (args : list string) : string :=
  match format with
  | EmptyString =>
      match args with
      | [] => ""
      | _ :: _ => "%!(EXTRA " ++ extra args ++ ")"
      end
  | String "%" (String "s" rest) =>
      match args with
      | a :: args' => a ++ Sprintf rest args'
      | [] => "%!s(MISSING)" ++ Sprintf rest []
      end
  | String "%" (String "%" rest) => String "%" (Sprintf rest args)
  | String c rest => String c (Sprintf rest args)
  end.

End fmt.

(* ===================================================================== *)
(** ** golang.org/x/tools/go/analysis: the records the analyzer fills in *)

Module TextEdit.
Record t := {
  Pos : token.Pos;
  End_ : token.Pos;
  NewText : string   (* []byte *)
}.
End TextEdit.

Module SuggestedFix.
Record t := {
  Message : string;
  TextEdits : list TextEdit.t
}.
End SuggestedFix.

Module Diagnostic.
(** The fields the analyzer sets; the others keep their zero value. *)
Record t := {
  Pos : token.Pos;
  Message : string;
  SuggestedFixes : list SuggestedFix.t
}.
End Diagnostic.

(* ===================================================================== *)
(** ** golang.org/x/tools/go/ast/inspector and the pass *)

Module inspector.

(** An inspector holds the nodes of the syntax trees in depth-first
    order: the order in which [Preorder] visits them. *)
Record Inspector := { events : list ast.Node }.

End inspector.

Module analysis.

Record Pass := {
  ResultOf_inspect : inspector.Inspector; (* pass.ResultOf[inspect.Analyzer] *)
  reported : list Diagnostic.t            (* what pass.Report received *)
}.

End analysis.

(* ===================================================================== *)
(** ** Computations against a pass: state and panics *)

Definition M (A : Type) : Type := analysis.Pass -> Result A * analysis.Pass.

Definition ret {A} (a : A) : M A := fun pass => (Returned a, pass).

Definition bind {A B} (c : M A) (k : A -> M B) : M B :=
  fun pass =>
    match c pass with
    | (Returned a, pass') => k a pass'
    | (Panicked e, pass') => (Panicked e, pass')
    end.

(** A pure computation that may panic. *)
Definition lift {A} (r : Result A) : M A := fun pass => (r, pass).

Declare Scope go_scope.
Delimit Scope go_scope with go.
Notation "x <- c ;; k" := (bind c (fun x => k))
  (at level 100, c at next level, right associativity) : go_scope.
Notation "c ;;; k" := (bind c (fun _ => k))
  (at level 100, right associativity) : go_scope.
Open Scope go_scope.

(** [pass.ResultOf[inspect.Analyzer].( *inspector.Inspector)] *)
Definition ResultOf_inspect : M inspector.Inspector :=
  fun pass => (Returned (analysis.ResultOf_inspect pass), pass).

(** [pass.Report(d)]: the diagnostic is handed to the sink. *)
Definition Report (d : Diagnostic.t) : M unit :=
  fun pass =>
    (Returned tt,
     {| analysis.ResultOf_inspect := analysis.ResultOf_inspect pass;
        analysis.reported := analysis.reported pass ++ [d] |}).

(** [in.Preorder(types, f)]: [f] is called on every node whose type is one
    of [types] (on every node when [types] is nil), in traversal order. A
    panic in [f] leaves the loop. *)
Definition typeMatches (types : list string) (n : ast.Node) : bool :=
  match types with
  | [] => true
  | _ :: _ => existsb (String.eqb (ast.Node_typeName n)) types
  end.

Fixpoint Preorder_events (events : list ast.Node) (types : list string)
    (f : ast.Node -> M unit) : M unit :=
  match events with
  | [] => ret tt
  | n :: rest =>
      (if typeMatches types n then f n else ret tt) ;;;
      Preorder_events rest types f
  end.

Definition Preorder (ins : inspector.Inspector) (types : list string)
    (f : ast.Node -> M unit) : M unit :=
  Preorder_events (inspector.events ins) types f.

(* ===================================================================== *)
(** ** Type assertions *)

(** [n.( *ast.AssignStmt)]: panics on any other node. *)
Definition assert_AssignStmt (n : ast.Node) : Result ast.AssignStmt :=
  match n with
  | ast.N_AssignStmt s => Returned s
  | _ => Panicked (InterfaceConversion "ast.Node" (ast.Node_typeName n) "*ast.AssignStmt")
  end.

(** [e.( *ast.Ident)]: panics on any other expression. *)
Definition assert_Ident (e : ast.Expr) : Result ast.IdentT :=
  match e with
  | ast.Ident namePos name =>
      Returned {| ast.Ident_NamePos := namePos; ast.Ident_Name := name |}
  | _ => Panicked (InterfaceConversion "ast.Expr" (ast.Expr_typeName e) "*ast.Ident")
  end.

(** [c, ok := e.( *ast.CompositeLit)]: [None] stands for [ok == false]. *)
Definition as_CompositeLit (e : ast.Expr) : option ast.CompositeLitT :=
  match e with
  | ast.CompositeLit ty lbrace elts rbrace =>
      Some {| ast.CompositeLit_Type := ty; ast.CompositeLit_Lbrace := lbrace;
              ast.CompositeLit_Elts := elts; ast.CompositeLit_Rbrace := rbrace |}
  | _ => None
  end.

(** [a, ok := t.( *ast.ArrayType)] on a possibly nil interface value. *)
Definition as_ArrayType (t : option ast.Expr) : option ast.ArrayTypeT :=
  match t with
  | Some (ast.ArrayType lbrack len elt) =>
      Some {| ast.ArrayType_Lbrack := lbrack; ast.ArrayType_Len := len;
              ast.ArrayType_Elt := elt |}
  | _ => None
  end.

(* ===================================================================== *)
(** ** package nitme *)

(** [func report(pass *analysis.Pass, n ast.Node, sliceName, eltName string)] *)
Definition report (n : ast.Node) (sliceName eltName : string) : M unit :=
  pos <- lift (ast.Node_Pos n) ;;
  editPos <- lift (ast.Node_Pos n) ;;
  editEnd <- lift (ast.Node_End n) ;;
  Report {|
    Diagnostic.Pos := pos;
    Diagnostic.Message := "incorrect empty slice declaration";
    Diagnostic.SuggestedFixes := [ {|
      SuggestedFix.Message := fmt.Sprintf "use var" [];
      SuggestedFix.TextEdits := [ {|
        TextEdit.Pos := editPos;
        TextEdit.End_ := editEnd;
        TextEdit.NewText := fmt.Sprintf "var %s []%s" [sliceName; eltName]
      |} ]
    |} ]
  |}.

(** We only care about AssignStmt nodes. *)
Definition nodeFilter : list string := ["*ast.AssignStmt"].

(** The function literal that [run] passes to [ins.Preorder]. *)
Definition run_func1 (n : ast.Node) : M unit :=
  assignment <- lift (assert_AssignStmt n) ;;
  (* If the assignment's RHS is not a composite, skip it. *)
  rhs0 <- lift (index (ast.Rhs assignment) 0) ;;
  match as_CompositeLit rhs0 with
  | None => ret tt
  | Some composite =>
      (* If the composite is not empty, skip it. *)
      match ast.CompositeLit_Elts composite with
      | Some _ => ret tt
      | None =>
          (* If the composite is not an array, skip it. *)
          match as_ArrayType (ast.CompositeLit_Type composite) with
          | None => ret tt
          | Some arrayType =>
              lhs0 <- lift (index (ast.Lhs assignment) 0) ;;
              ident <- lift (assert_Ident lhs0) ;;
              elt <- lift (assert_Ident (ast.ArrayType_Elt arrayType)) ;;
              report n (ast.Ident_Name ident) (ast.Ident_Name elt)
          end
      end
  end.

(** [func run(pass *analysis.Pass) (interface{}, error)]: both results are nil. *)
Definition run : M (option unit * option string) :=
  ins <- ResultOf_inspect ;;
  Preorder ins nodeFilter run_func1 ;;;
  ret (None, None).

Record Analyzer := {
  Name : string;
  Doc : string;
  Run : M (option unit * option string);
  Requires : list string
}.

Definition analyzer : Analyzer := {|
  Name := "nitme";
  Doc := "This analyzer catches nits before your reviewer does.";
  Run := run;
  Requires := ["inspect"]
|}.

(* ===================================================================== *)
(** ** The test data of the tutorial *)

(** [incorrect := []int{}], the statement starting at position [p]. *)
Definition incorrect_at (p : token.Pos) : ast.AssignStmt := {|
  ast.Lhs := [ast.Ident p "incorrect"];
  ast.TokPos := p + 10;
  ast.Tok := token.DEFINE;
  ast.Rhs := [ast.CompositeLit
                (Some (ast.ArrayType (p + 13) None (ast.Ident (p + 15) "int")))
                (p + 18) None (p + 19)]
|}.

(** [nonEmpty := []int{0}] *)
Definition nonEmpty_at (p : token.Pos) : ast.AssignStmt := {|
  ast.Lhs := [ast.Ident p "nonEmpty"];
  ast.TokPos := p + 9;
  ast.Tok := token.DEFINE;
  ast.Rhs := [ast.CompositeLit
                (Some (ast.ArrayType (p + 12) None (ast.Ident (p + 14) "int")))
                (p + 17) (Some [ast.BasicLit (p + 18) "0"]) (p + 19)]
|}.

Definition pass_of (nodes : list ast.Node) : analysis.Pass := {|
  analysis.ResultOf_inspect := {| inspector.events := nodes |};
  analysis.reported := []
|}.

(** [x := []*int{}]: a slice of pointers, the element type is a [StarExpr]. *)
Definition pointers_at (p : token.Pos) : ast.AssignStmt := {|
  ast.Lhs := [ast.Ident p "x"];
  ast.TokPos := p + 2;
  ast.Tok := token.DEFINE;
  ast.Rhs := [ast.CompositeLit
                (Some (ast.ArrayType (p + 5) None
                         (ast.StarExpr (p + 7) (ast.Ident (p + 8) "int"))))
                (p + 11) None (p + 12)]
|}.

(** [a, b := []int{}, []int{}] *)
Definition pair_at (p : token.Pos) : ast.AssignStmt := {|
  ast.Lhs := [ast.Ident p "a"; ast.Ident (p + 3) "b"];
  ast.TokPos := p + 5;
  ast.Tok := token.DEFINE;
  ast.Rhs := [ast.CompositeLit
                (Some (ast.ArrayType (p + 8) None (ast.Ident (p + 10) "int")))
                (p + 13) None (p + 14);
              ast.CompositeLit
                (Some (ast.ArrayType (p + 17) None (ast.Ident (p + 19) "int")))
                (p + 22) None (p + 23)]
|}.

(** [x := [3]int{}]: an array of three integers, not a slice. *)
Definition array3_at (p : token.Pos) : ast.AssignStmt := {|
  ast.Lhs := [ast.Ident p "x"];
  ast.TokPos := p + 2;
  ast.Tok := token.DEFINE;
  ast.Rhs := [ast.CompositeLit
                (Some (ast.ArrayType (p + 5) (Some (ast.BasicLit (p + 6) "3"))
                         (ast.Ident (p + 8) "int")))
                (p + 11) None (p + 12)]
|}.

(** [x = []int{}]: a plain assignment to a variable declared earlier. *)
Definition reassigned_at (p : token.Pos) : ast.AssignStmt := {|
  ast.Lhs := [ast.Ident p "x"];
  ast.TokPos := p + 2;
  ast.Tok := token.ASSIGN;
  ast.Rhs := [ast.CompositeLit
                (Some (ast.ArrayType (p + 4) None (ast.Ident (p + 6) "int")))
                (p + 9) None (p + 10)]
|}.

(** [_, _, _ = correct, incorrect, nonEmpty], the last statement of the
    tutorial's test function. *)
Definition blank_at (p : token.Pos) : ast.AssignStmt := {|
  ast.Lhs := [ast.Ident p "_"; ast.Ident (p + 3) "_"; ast.Ident (p + 6) "_"];
  ast.TokPos := p + 8;
  ast.Tok := token.ASSIGN;
  ast.Rhs := [ast.Ident (p + 10) "correct"; ast.Ident (p + 19) "incorrect";
              ast.Ident (p + 30) "nonEmpty"]
|}.

(** [testdata/src/tests/test.go]: the statements of [func test()] in
    traversal order, each assignment followed by its operands.
<<
	var correct []int
	nonEmpty := []int{0}
	incorrect := []int{}                   // want "incorrect empty slice declaration"
	_, _, _ = correct, incorrect, nonEmpty
>> *)
Definition test_go : list ast.Node :=
  [ ast.N_DeclStmt 31 48;
    ast.N_AssignStmt (nonEmpty_at 50) ]
  ++ map ast.N_Expr (ast.Lhs (nonEmpty_at 50) ++ ast.Rhs (nonEmpty_at 50))
  ++ [ ast.N_AssignStmt (incorrect_at 72) ]
  ++ map ast.N_Expr (ast.Lhs (incorrect_at 72) ++ ast.Rhs (incorrect_at 72))
  ++ [ ast.N_AssignStmt (blank_at 156) ]
  ++ map ast.N_Expr (ast.Lhs (blank_at 156) ++ ast.Rhs (blank_at 156)).

(* ===================================================================== *)
(** ** Vocabulary of the properties *)

(** The pass after the diagnostics [ds] were handed to the sink. *)
Definition add_reports (pass : analysis.Pass) (ds : list Diagnostic.t) : analysis.Pass :=
  {| analysis.ResultOf_inspect := analysis.ResultOf_inspect pass;
     analysis.reported := analysis.reported pass ++ ds |}.

(** The diagnostics a computation hands to the sink when started in [pass]. *)
Definition emitted {A} (c : M A) (pass : analysis.Pass) : list Diagnostic.t :=
  skipn (List.length (analysis.reported pass)) (analysis.reported (snd (c pass))).

(** The diagnostic of the analyzer for a statement spanning [start, stop). *)
Definition empty_slice_diagnostic (start stop : token.Pos) (sliceName eltName : string)
    : Diagnostic.t :=
  {| Diagnostic.Pos := start;
     Diagnostic.Message := "incorrect empty slice declaration";
     Diagnostic.SuggestedFixes :=
       [ {| SuggestedFix.Message := "use var";
            SuggestedFix.TextEdits :=
              [ {| TextEdit.Pos := start;
                   TextEdit.End_ := stop;
                   TextEdit.NewText := "var " ++ sliceName ++ " " ++ "[]" ++ eltName |} ] |} ] |}.

Definition is_Ident (e : ast.Expr) : bool :=
  match e with ast.Ident _ _ => true | _ => false end.

Definition is_CompositeLit (e : ast.Expr) : bool :=
  match e with ast.CompositeLit _ _ _ _ => true | _ => false end.

Definition is_ArrayType (t : option ast.Expr) : bool :=
  match t with Some (ast.ArrayType _ _ _) => true | _ => false end.

(** The three filters of the matcher, on the first value of the statement. *)
Definition filters_pass (a : ast.AssignStmt) : bool :=
  match ast.Rhs a with
  | ast.CompositeLit ty _ None _ :: _ => is_ArrayType ty
  | _ => false
  end.

(** The first target and the element type are both plain identifiers. *)
Definition names_extractable (a : ast.AssignStmt) : bool :=
  match ast.Lhs a, ast.Rhs a with
  | target :: _, ast.CompositeLit (Some (ast.ArrayType _ _ elt)) _ _ _ :: _ =>
      is_Ident target && is_Ident elt
  | _, _ => false
  end.

(** [s.f = []int{}]: the single target is a field, not a plain identifier. *)
Definition field_at (p : token.Pos) : ast.AssignStmt := {|
  ast.Lhs := [ast.SelectorExpr (ast.Ident p "s") (p + 2) "f"];
  ast.TokPos := p + 4;
  ast.Tok := token.ASSIGN;
  ast.Rhs := [ast.CompositeLit
                (Some (ast.ArrayType (p + 6) None (ast.Ident (p + 8) "int")))
                (p + 11) None (p + 12)]
|}.


(** What a whole run is expected to do, statement by statement. *)

(** The callback panics on [a]: there is no first value, or the filters
    pass and a name cannot be extracted. *)
Definition crashes (a : ast.AssignStmt) : bool :=
  match ast.Rhs a with
  | [] => true
  | _ :: _ => filters_pass a && negb (names_extractable a)
  end.

(** The diagnostic owed to a statement: one when the first value is an
    array-typed literal with nil elements over an identifier and the first
    target is an identifier, none otherwise. The edit ends where the last
    value ends. *)
Definition diagnostic_of (a : ast.AssignStmt) : list Diagnostic.t :=
  match ast.Lhs a, ast.Rhs a with
  | ast.Ident namePos name :: _,
    ast.CompositeLit (Some (ast.ArrayType lbrack len (ast.Ident eltPos eltName)))
      lbrace None rbrace :: values =>
      [empty_slice_diagnostic namePos
         (ast.Expr_End
            (last values
               (ast.CompositeLit
                  (Some (ast.ArrayType lbrack len (ast.Ident eltPos eltName)))
                  lbrace None rbrace)))
         name eltName]
  | _, _ => []
  end.

Definition diagnostics_of (n : ast.Node) : list Diagnostic.t :=
  match n with
  | ast.N_AssignStmt a => diagnostic_of a
  | _ => []
  end.

Definition node_crashes (n : ast.Node) : bool :=
  match n with
  | ast.N_AssignStmt a => crashes a
  | _ => false
  end.

(** The nodes in front of the first statement on which the callback panics. *)
Fixpoint before_crash (nodes : list ast.Node) : list ast.Node :=
  match nodes with
  | [] => []
  | n :: rest => if node_crashes n then [] else n :: before_crash rest
  end.

(** The errors the two unchecked steps after the filters can raise. *)
Definition extraction_error (err : RuntimeError) : Prop :=
  err = IndexOutOfRange 0 0
  \/ exists dynamic, err = InterfaceConversion "ast.Expr" dynamic "*ast.Ident"
                     /\ dynamic <> "*ast.Ident".

(** A diagnostic of the shape [report] builds. *)
Definition has_one_var_fix (d : Diagnostic.t) : Prop :=
  Diagnostic.Message d = "incorrect empty slice declaration"
  /\ exists (stop : token.Pos) (sliceName eltName : string),
       Diagnostic.SuggestedFixes d
       = [ {| SuggestedFix.Message := "use var";
              SuggestedFix.TextEdits :=
                [ {| TextEdit.Pos := Diagnostic.Pos d;
                     TextEdit.End_ := stop;
                     TextEdit.NewText := "var " ++ sliceName ++ " " ++ "[]" ++ eltName |} ] |} ].

(* ===================================================================== *)
(** ** The first version of the analyzer, as the tutorial gives it

    Before the suggested fix is added, the callback keeps neither the
    array type nor the names and reports through [pass.Reportf]; its first
    type assertion is the two-result form, which leaves a nil pointer
    behind instead of panicking. *)

Inductive Panic :=
| RuntimeErr (e : RuntimeError)
| NilPointerDereference.
    (* "invalid memory address or nil pointer dereference" *)

Inductive Outcome (A : Type) :=
| Completed (a : A)
| Crashed (p : Panic).
Arguments Completed {A} a.
Arguments Crashed {A} p.

Definition M1 (A : Type) : Type := analysis.Pass -> Outcome A * analysis.Pass.

Definition ret1 {A} (a : A) : M1 A := fun pass => (Completed a, pass).

Definition bind1 {A B} (c : M1 A) (k : A -> M1 B) : M1 B :=
  fun pass =>
    match c pass with
    | (Completed a, pass') => k a pass'
    | (Crashed p, pass') => (Crashed p, pass')
    end.

(** A computation that can only panic with a [RuntimeError]. *)
Definition from_M {A} (c : M A) : M1 A :=
  fun pass =>
    match c pass with
    | (Returned a, pass') => (Completed a, pass')
    | (Panicked e, pass') => (Crashed (RuntimeErr e), pass')
    end.

(** [p.f] through a pointer that may be nil. *)
Definition deref {A B} (p : option A) (f : A -> B) : M1 B :=
  fun pass =>
    match p with
    | Some x => (Completed (f x), pass)
    | None => (Crashed NilPointerDereference, pass)
    end.

Notation "x <~ c ;; k" := (bind1 c (fun x => k))
  (at level 100, c at next level, right associativity) : go_scope.

(** [a, _ := n.( *ast.AssignStmt)]: the nil pointer on any other node. *)
Definition as_AssignStmt (n : ast.Node) : option ast.AssignStmt :=
  match n with
  | ast.N_AssignStmt s => Some s
  | _ => None
  end.

(** [func (pass *Pass) Reportf(pos token.Pos, format string, args ...interface{})]:
    the message is formatted and reported without a fix. *)
Definition Reportf (pos : token.Pos) (format : string) (args : list string) : M unit :=
  Report {| Diagnostic.Pos := pos;
            Diagnostic.Message := fmt.Sprintf format args;
            Diagnostic.SuggestedFixes := [] |}.

(** The function literal of the first version. *)
Definition tutorial_run_func1 (n : ast.Node) : M1 unit :=
  let assignment := as_AssignStmt n in
  (* If the assignment's RHS is not a composite, skip it. *)
  rhs <~ deref assignment ast.Rhs ;;
  rhs0 <~ from_M (lift (index rhs 0)) ;;
  match as_CompositeLit rhs0 with
  | None => ret1 tt
  | Some composite =>
      (* If the composite is not empty, skip it. *)
      match ast.CompositeLit_Elts composite with
      | Some _ => ret1 tt
      | None =>
          (* If the composite is not an array, skip it. *)
          match as_ArrayType (ast.CompositeLit_Type composite) with
          | None => ret1 tt
          | Some _ =>
              (* At this point, we know the assignment is declaring an empty
                 slice, so we report it. *)
              pos <~ (s <~ deref assignment (fun s => s) ;;
                      from_M (lift (ast.AssignStmt_Pos s))) ;;
              from_M (Reportf pos "incorrect empty slice declaration" [])
          end
      end
  end.

Fixpoint Preorder_events1 (events : list ast.Node) (types : list string)
    (f : ast.Node -> M1 unit) : M1 unit :=
  match events with
  | [] => ret1 tt
  | n :: rest =>
      _ <~ (if typeMatches types n then f n else ret1 tt) ;;
      Preorder_events1 rest types f
  end.

(** [run] of the first version: the same traversal with the other callback. *)
Definition tutorial_run : M1 (option unit * option string) :=
  ins <~ from_M ResultOf_inspect ;;
  _ <~ Preorder_events1 (inspector.events ins) nodeFilter tutorial_run_func1 ;;
  ret1 (None, None).

(** The diagnostic of the first version for the same statement: the fix
    is dropped. *)
Definition without_fixes (d : Diagnostic.t) : Diagnostic.t :=
  {| Diagnostic.Pos := Diagnostic.Pos d;
     Diagnostic.Message := Diagnostic.Message d;
     Diagnostic.SuggestedFixes := [] |}.

Definition emitted1 {A} (c : M1 A) (pass : analysis.Pass) : list Diagnostic.t :=
  skipn (List.length (analysis.reported pass)) (analysis.reported (snd (c pass))).

(** The diagnostic the first version owes to a statement. *)
Definition tutorial_diagnostics_of (n : ast.Node) : list Diagnostic.t :=
  match n with
  | ast.N_AssignStmt a =>
      match ast.Lhs a with
      | target :: _ =>
          if filters_pass a
          then [ {| Diagnostic.Pos := ast.Expr_Pos target;
                    Diagnostic.Message := "incorrect empty slice declaration";
                    Diagnostic.SuggestedFixes := [] |} ]
          else []
      | [] => []
      end
  | _ => []
  end.

(** A statement as the parser builds it: at least one target and one value. *)
Definition parsed_shape (n : ast.Node) : bool :=
  match n with
  | ast.N_AssignStmt a =>
      match ast.Lhs a, ast.Rhs a with
      | _ :: _, _ :: _ => true
      | _, _ => false
      end
  | _ => true
  end.

(* ===================================================================== *)
(** ** Auxiliary facts *)

Lemma append_empty_r (s : string) : s ++ "" = s.
Proof. induction s as [|c s IH]; simpl; [reflexivity | now rewrite IH]. Qed.

Lemma Sprintf_var_decl (sliceName eltName : string) :
  fmt.Sprintf "var %s []%s" [sliceName; eltName]
  = "var " ++ sliceName ++ " " ++ "[]" ++ eltName.
Proof. simpl. now rewrite append_empty_r. Qed.

Lemma add_reports_nil (pass : analysis.Pass) : add_reports pass [] = pass.
Proof. destruct pass; unfold add_reports; simpl. now rewrite app_nil_r. Qed.

Lemma add_reports_app pass ds1 ds2 :
  add_reports (add_reports pass ds1) ds2 = add_reports pass (ds1 ++ ds2).
Proof. unfold add_reports; simpl. now rewrite app_assoc. Qed.

Lemma index_first {A} (x : A) (s : list A) : index (x :: s) 0 = Returned x.
Proof. reflexivity. Qed.

Lemma last_cons_default {A} (s : list A) :
  forall a x y, last (a :: s) x = last (a :: s) y.
Proof.
  induction s as [|b s IH]; intros a x y; [reflexivity |].
  change (last (b :: s) x = last (b :: s) y). apply IH.
Qed.

Lemma nth_error_final {A} (s : list A) :
  forall x, nth_error (x :: s) (List.length s) = Some (last s x).
Proof.
  induction s as [|y s IH]; intros x; [reflexivity |].
  change (nth_error (y :: s) (List.length s) = Some (last (y :: s) x)).
  rewrite IH. f_equal. destruct s as [|b s]; [reflexivity |].
  change (last (b :: s) y = last (b :: s) x). apply last_cons_default.
Qed.

Lemma index_final {A} (x : A) (s : list A) :
  index (x :: s) (Z.of_nat (List.length (x :: s)) - 1) = Returned (last s x).
Proof.
  unfold index.
  replace (Z.of_nat (List.length (x :: s)) - 1) with (Z.of_nat (List.length s))
    by (simpl List.length; lia).
  destruct (Z.ltb_spec (Z.of_nat (List.length s)) 0) as [Hneg | _]; [lia |].
  now rewrite Nat2Z.id, nth_error_final.
Qed.

Lemma AssignStmt_End_cons (a : ast.AssignStmt) (e : ast.Expr) (rest : list ast.Expr) :
  ast.Rhs a = e :: rest -> ast.AssignStmt_End a = Returned (ast.Expr_End (last rest e)).
Proof. intros H. unfold ast.AssignStmt_End. rewrite H, index_final. reflexivity. Qed.

Lemma AssignStmt_Pos_cons (a : ast.AssignStmt) (e : ast.Expr) (rest : list ast.Expr) :
  ast.Lhs a = e :: rest -> ast.AssignStmt_Pos a = Returned (ast.Expr_Pos e).
Proof. intros H. unfold ast.AssignStmt_Pos. now rewrite H. Qed.

(** What [report] does on an assignment with at least one target and value. *)
Lemma report_AssignStmt (a : ast.AssignStmt) target targets value values
    sliceName eltName pass :
  ast.Lhs a = target :: targets ->
  ast.Rhs a = value :: values ->
  report (ast.N_AssignStmt a) sliceName eltName pass
  = (Returned tt,
     add_reports pass
       [empty_slice_diagnostic (ast.Expr_Pos target) (ast.Expr_End (last values value))
          sliceName eltName]).
Proof.
  intros Hl Hr. unfold report, bind, lift, Report. cbn [ast.Node_Pos ast.Node_End].
  rewrite (AssignStmt_Pos_cons _ _ _ Hl), (AssignStmt_End_cons _ _ _ Hr).
  rewrite Sprintf_var_decl. reflexivity.
Qed.

(** Running [run_func1] up to the call of [report], which stays folded. *)
Ltac run_callback :=
  unfold run_func1, bind, lift, ret;
  cbn [assert_AssignStmt as_CompositeLit as_ArrayType assert_Ident
       ast.Rhs ast.Lhs ast.CompositeLit_Elts ast.CompositeLit_Type
       ast.ArrayType_Elt ast.Ident_Name ast.Node_typeName ast.Expr_typeName
       fst snd];
  try rewrite !index_first.

(** A statement whose first value fails a filter is skipped silently. *)
Lemma run_func1_no_match (a : ast.AssignStmt) (e : ast.Expr) (rest : list ast.Expr)
    (pass : analysis.Pass) :
  ast.Rhs a = e :: rest ->
  filters_pass a = false ->
  run_func1 (ast.N_AssignStmt a) pass = (Returned tt, pass).
Proof.
  intros Hr Hf. unfold filters_pass in Hf. rewrite Hr in Hf.
  run_callback. rewrite Hr, index_first.
  destruct e as [ | | | ty lbrace elts rbrace | | | | | | ]; try reflexivity.
  destruct elts as [elts|]; [reflexivity |].
  destruct ty as [[ | | | | | | | | lbrack len elt | ]|];
    try reflexivity; discriminate Hf.
Qed.

(** A statement that passes the filters and has plain identifiers is reported. *)
Lemma run_func1_match (a : ast.AssignStmt) namePos name targets
    lbrack len eltPos eltName lbrace rbrace values (pass : analysis.Pass) :
  ast.Lhs a = ast.Ident namePos name :: targets ->
  ast.Rhs a = ast.CompositeLit
                (Some (ast.ArrayType lbrack len (ast.Ident eltPos eltName)))
                lbrace None rbrace :: values ->
  run_func1 (ast.N_AssignStmt a) pass
  = (Returned tt,
     add_reports pass
       [empty_slice_diagnostic namePos
          (ast.Expr_End
             (last values
                (ast.CompositeLit
                   (Some (ast.ArrayType lbrack len (ast.Ident eltPos eltName)))
                   lbrace None rbrace)))
          name eltName]).
Proof.
  intros Hl Hr. run_callback. rewrite Hr, index_first. run_callback.
  rewrite Hl, index_first. run_callback.
  now rewrite (report_AssignStmt a _ _ _ _ name eltName pass Hl Hr).
Qed.

(** A statement that passes the filters but has no plain identifier where
    one is asserted makes the callback panic, before anything is reported. *)
Lemma run_func1_defect (a : ast.AssignStmt) target targets
    ty lbrack len elt lbrace rbrace values (pass : analysis.Pass) :
  ast.Lhs a = target :: targets ->
  ast.Rhs a = ast.CompositeLit ty lbrace None rbrace :: values ->
  ty = Some (ast.ArrayType lbrack len elt) ->
  is_Ident target && is_Ident elt = false ->
  run_func1 (ast.N_AssignStmt a) pass
  = (Panicked (InterfaceConversion "ast.Expr"
                 (ast.Expr_typeName (if is_Ident target then elt else target))
                 "*ast.Ident"),
     pass).
Proof.
  intros Hl Hr -> Hd. run_callback. rewrite Hr, index_first. run_callback.
  rewrite Hl, index_first.
  destruct target; cbn [is_Ident andb] in *;
    try reflexivity.
  destruct elt; cbn [is_Ident] in *; try reflexivity; discriminate Hd.
Qed.

(** The effect of one call of [run_func1] is a function of the node alone:
    its result and the diagnostics it appends do not depend on the pass, and
    it appends at most one. *)
Lemma run_func1_effect (n : ast.Node) :
  exists (r : Result unit) (ds : list Diagnostic.t),
    (List.length ds <= 1)%nat /\
    forall pass, run_func1 n pass = (r, add_reports pass ds).
Proof.
  destruct n as [a | declPos declEnd | x | e];
    try (eexists; exists []; split; [simpl; lia |];
         intros pass; rewrite add_reports_nil; reflexivity).
  destruct (ast.Rhs a) as [|value values] eqn:Hr.
  { eexists; exists []; split; [simpl; lia |].
    intros pass; rewrite add_reports_nil. run_callback. now rewrite Hr. }
  destruct (filters_pass a) eqn:Hf.
  2:{ exists (Returned tt), []; split; [simpl; lia |].
      intros pass; rewrite add_reports_nil.
      now apply (run_func1_no_match a value values). }
  unfold filters_pass in Hf; rewrite Hr in Hf.
  destruct value as [ | | | ty lbrace elts rbrace | | | | | | ]; try discriminate Hf.
  destruct elts as [elts|]; [discriminate Hf |].
  destruct ty as [[ | | | | | | | | lbrack len elt | ]|]; try discriminate Hf.
  destruct (ast.Lhs a) as [|target targets] eqn:Hl.
  { eexists; exists []; split; [simpl; lia |].
    intros pass; rewrite add_reports_nil. run_callback.
    rewrite Hr, index_first. run_callback. now rewrite Hl. }
  destruct (is_Ident target && is_Ident elt) eqn:Hd.
  - destruct target as [ | namePos name | | | | | | | | ]; try discriminate Hd.
    destruct elt as [ | eltPos eltName | | | | | | | | ]; try discriminate Hd.
    eexists; eexists; split;
      [| intros pass; apply (run_func1_match a _ _ _ _ _ _ _ _ _ _ pass Hl Hr)].
    simpl; lia.
  - eexists; exists []; split; [simpl; lia |].
    intros pass; rewrite add_reports_nil.
    apply (run_func1_defect a _ _ _ _ _ _ _ _ _ pass Hl Hr eq_refl Hd).
Qed.

Lemma emitted_add_reports {A} (c : M A) (pass : analysis.Pass) (r : Result A)
    (ds : list Diagnostic.t) :
  c pass = (r, add_reports pass ds) -> emitted c pass = ds.
Proof.
  intros H. unfold emitted. rewrite H. simpl.
  rewrite skipn_app, skipn_all, Nat.sub_diag. reflexivity.
Qed.

(** [Preorder] over a concatenation: the second part is visited from the
    state the first part leaves, and only if the first part returned. *)
Lemma Preorder_events_app (types : list string) (f : ast.Node -> M unit)
    (before after : list ast.Node) :
  forall pass,
    Preorder_events (before ++ after) types f pass
    = match Preorder_events before types f pass with
      | (Returned _, pass') => Preorder_events after types f pass'
      | (Panicked e, pass') => (Panicked e, pass')
      end.
Proof.
  induction before as [|n before IH]; intros pass; [reflexivity |].
  cbn [app Preorder_events]. unfold bind.
  destruct ((if typeMatches types n then f n else ret tt) pass) as [[u | e] pass'];
    [apply IH | reflexivity].
Qed.

(** A traversal with [run_func1] only appends diagnostics to the pass. *)
Lemma Preorder_events_effect (nodes : list ast.Node) :
  forall pass, exists (r : Result unit) (ds : list Diagnostic.t),
    Preorder_events nodes nodeFilter run_func1 pass = (r, add_reports pass ds).
Proof.
  induction nodes as [|n nodes IH]; intros pass.
  - exists (Returned tt), []. now rewrite add_reports_nil.
  - cbn [Preorder_events]. unfold bind.
    destruct (typeMatches nodeFilter n).
    + destruct (run_func1_effect n) as (r & ds & _ & Hn). rewrite Hn.
      destruct r as [u | e].
      * destruct (IH (add_reports pass ds)) as (r' & ds' & Hrest).
        exists r', (ds ++ ds')%list. now rewrite Hrest, add_reports_app.
      * now exists (Panicked e), ds.
    + unfold ret. apply IH.
Qed.

(** Nodes of another type than [*ast.AssignStmt] never reach the callback. *)
Lemma Preorder_events_skip (n : ast.Node) (rest : list ast.Node)
    (f : ast.Node -> M unit) (pass : analysis.Pass) :
  typeMatches nodeFilter n = false ->
  Preorder_events (n :: rest) nodeFilter f pass = Preorder_events rest nodeFilter f pass.
Proof. intros H. cbn [Preorder_events]. unfold bind. now rewrite H. Qed.

Lemma typeMatches_AssignStmt_only (n : ast.Node) :
  typeMatches nodeFilter n = true -> exists a, n = ast.N_AssignStmt a.
Proof.
  destruct n as [a | declPos declEnd | x | e]; intros H.
  - now exists a.
  - discriminate H.
  - discriminate H.
  - destruct e; discriminate H.
Qed.

(** The test of the tutorial: on [test.go] the analyzer reports the third
    statement and nothing else, and the fix is the line of [test.go.golden]. *)
Example run_test_go :
  run (pass_of test_go)
  = (Returned (None, None),
     add_reports (pass_of test_go)
       [empty_slice_diagnostic 72 92 "incorrect" "int"])
  /\ TextEdit.NewText
       (hd {| TextEdit.Pos := 0; TextEdit.End_ := 0; TextEdit.NewText := "" |}
          (SuggestedFix.TextEdits
             (hd {| SuggestedFix.Message := ""; SuggestedFix.TextEdits := [] |}
                (Diagnostic.SuggestedFixes
                   (empty_slice_diagnostic 72 92 "incorrect" "int")))))
     = "var incorrect []int".
Proof. split; reflexivity. Qed.

(* ===================================================================== *)
(** ** Properties of the analyzer *)

(** C1, as stated, fails: [s.f = []int{}] has a single target and the
    value the claim describes, an array-typed literal with nil elements
    over the identifier [int], but the target is a selector: the callback
    panics at [assignment.Lhs[0].( *ast.Ident)] and no diagnostic is
    produced. *)
Lemma C1_counterexample_selector_target :
  run_func1 (ast.N_AssignStmt (field_at 1)) (pass_of [])
  = (Panicked (InterfaceConversion "ast.Expr" "*ast.SelectorExpr" "*ast.Ident"),
     pass_of [])
  /\ emitted (run_func1 (ast.N_AssignStmt (field_at 1))) (pass_of []) = []
  /\ ~ (forall (a : ast.AssignStmt) (target : ast.Expr)
              (lbrack : token.Pos) (len : option ast.Expr)
              (eltPos : token.Pos) (eltName : string) (lbrace rbrace : token.Pos)
              (pass : analysis.Pass),
         ast.Lhs a = [target] ->
         ast.Rhs a = [ast.CompositeLit
                        (Some (ast.ArrayType lbrack len (ast.Ident eltPos eltName)))
                        lbrace None rbrace] ->
         List.length (emitted (run_func1 (ast.N_AssignStmt a)) pass) = 1%nat).
Proof.
  split; [reflexivity | split; [reflexivity |]].
  intros H.
  specialize (H (field_at 1) (ast.SelectorExpr (ast.Ident 1 "s") 3 "f")
                7 None 9 "int" 12 13 (pass_of []) eq_refl eq_refl).
  discriminate H.
Qed.

(** C1, amended: for an assignment whose single target is a plain
    identifier and whose value is a composite literal with a nil element
    sequence and an array type over a plain identifier, the callback
    returns normally and hands exactly one diagnostic to the sink: message
    "incorrect empty slice declaration", one suggested fix "use var", with
    one text edit from the statement's [Pos()] to its [End()] whose new
    text is "var ", the target name, a space, "[]" and the element-type
    name. *)
Theorem C1_empty_slice_literal_is_reported
    (a : ast.AssignStmt) (namePos : token.Pos) (name : string)
    (lbrack : token.Pos) (len : option ast.Expr)
    (eltPos : token.Pos) (eltName : string) (lbrace rbrace : token.Pos)
    (pass : analysis.Pass) :
  ast.Lhs a = [ast.Ident namePos name] ->
  ast.Rhs a = [ast.CompositeLit
                 (Some (ast.ArrayType lbrack len (ast.Ident eltPos eltName)))
                 lbrace None rbrace] ->
  exists start stop : token.Pos,
    ast.Node_Pos (ast.N_AssignStmt a) = Returned start /\
    ast.Node_End (ast.N_AssignStmt a) = Returned stop /\
    run_func1 (ast.N_AssignStmt a) pass
    = (Returned tt,
       {| analysis.ResultOf_inspect := analysis.ResultOf_inspect pass;
          analysis.reported :=
            (analysis.reported pass ++
             [ {| Diagnostic.Pos := start;
                  Diagnostic.Message := "incorrect empty slice declaration";
                  Diagnostic.SuggestedFixes :=
                    [ {| SuggestedFix.Message := "use var";
                         SuggestedFix.TextEdits :=
                           [ {| TextEdit.Pos := start;
                                TextEdit.End_ := stop;
                                TextEdit.NewText :=
                                  "var " ++ name ++ " " ++ "[]" ++ eltName |} ]
                      |} ] |} ])%list |}).
Proof.
  intros Hl Hr. exists namePos, (rbrace + 1). repeat split.
  - cbn [ast.Node_Pos]. now rewrite (AssignStmt_Pos_cons _ _ _ Hl).
  - cbn [ast.Node_End]. now rewrite (AssignStmt_End_cons _ _ _ Hr).
  - now rewrite (run_func1_match a _ _ _ _ _ _ _ _ _ _ pass Hl Hr).
Qed.

Lemma C1_witness_incorrect :
  run_func1 (ast.N_AssignStmt (incorrect_at 1)) (pass_of [])
  = (Returned tt,
     add_reports (pass_of []) [empty_slice_diagnostic 1 21 "incorrect" "int"]).
Proof.
  destruct (C1_empty_slice_literal_is_reported (incorrect_at 1)
              1 "incorrect" 14 None 16 "int" 19 20 (pass_of []) eq_refl eq_refl)
    as (start & stop & Hstart & Hstop & Hrun).
  injection Hstart as <-. injection Hstop as <-. exact Hrun.
Defined.

(** C2: when the first value of an assignment is not a composite literal,
    or is a composite literal whose element sequence is present (even of
    length zero), or is a composite literal whose type is not an array
    type, the callback returns normally and leaves the pass as it was: no
    diagnostic, no panic, nothing else. *)
Theorem C2_filter_failure_is_silent
    (a : ast.AssignStmt) (e : ast.Expr) (rest : list ast.Expr)
    (pass : analysis.Pass) :
  ast.Rhs a = e :: rest ->
  (is_CompositeLit e = false
   \/ (exists ty lbrace elts rbrace,
         e = ast.CompositeLit ty lbrace (Some elts) rbrace)
   \/ (exists ty lbrace elts rbrace,
         e = ast.CompositeLit ty lbrace elts rbrace /\ is_ArrayType ty = false)) ->
  run_func1 (ast.N_AssignStmt a) pass = (Returned tt, pass).
Proof.
  intros Hr Hfail. apply (run_func1_no_match a e rest pass Hr).
  unfold filters_pass. rewrite Hr.
  destruct Hfail as [Hnot | [(ty & lbrace & elts & rbrace & ->)
                           | (ty & lbrace & elts & rbrace & -> & Hty)]].
  - destruct e; try reflexivity; discriminate Hnot.
  - reflexivity.
  - destruct elts; [reflexivity | exact Hty].
Qed.

Lemma C2_witness_nonEmpty :
  run_func1 (ast.N_AssignStmt (nonEmpty_at 1)) (pass_of [])
  = (Returned tt, pass_of []).
Proof.
  apply (C2_filter_failure_is_silent (nonEmpty_at 1)
           (ast.CompositeLit
              (Some (ast.ArrayType 13 None (ast.Ident 15 "int")))
              18 (Some [ast.BasicLit 19 "0"]) 20)
           [] (pass_of []) eq_refl).
  right; left. repeat eexists.
Defined.

(** C3, on the code: [x := []*int{}] passes the three filters and its
    element type is not a plain identifier. The unchecked assertion
    [arrayType.Elt.( *ast.Ident)] panics and nothing recovers it: on the
    tree of [x := []*int{}] followed by [incorrect := []int{}] the run ends
    at the first statement with no diagnostic at all, although the second
    statement alone is reported. The other nodes are not traversed. The
    first version of the analyzer, whose assertions are all of the checked
    form, completes on the same tree and reports both statements. *)
Theorem C3_unchecked_assertion_aborts_run :
  filters_pass (pointers_at 1) = true /\
  names_extractable (pointers_at 1) = false /\
  run_func1 (ast.N_AssignStmt (pointers_at 1)) (pass_of [])
  = (Panicked (InterfaceConversion "ast.Expr" "*ast.StarExpr" "*ast.Ident"),
     pass_of []) /\
  emitted (run_func1 (ast.N_AssignStmt (incorrect_at 20))) (pass_of [])
  = [empty_slice_diagnostic 20 40 "incorrect" "int"] /\
  run (pass_of [ast.N_AssignStmt (pointers_at 1); ast.N_AssignStmt (incorrect_at 20)])
  = (Panicked (InterfaceConversion "ast.Expr" "*ast.StarExpr" "*ast.Ident"),
     pass_of [ast.N_AssignStmt (pointers_at 1); ast.N_AssignStmt (incorrect_at 20)]) /\
  tutorial_run
    (pass_of [ast.N_AssignStmt (pointers_at 1); ast.N_AssignStmt (incorrect_at 20)])
  = (Completed (None, None),
     add_reports
       (pass_of [ast.N_AssignStmt (pointers_at 1); ast.N_AssignStmt (incorrect_at 20)])
       [ {| Diagnostic.Pos := 1;
            Diagnostic.Message := "incorrect empty slice declaration";
            Diagnostic.SuggestedFixes := [] |};
         {| Diagnostic.Pos := 20;
            Diagnostic.Message := "incorrect empty slice declaration";
            Diagnostic.SuggestedFixes := [] |} ]) /\
  ~ (forall (before after : list ast.Node) (a : ast.AssignStmt) (pass : analysis.Pass),
       filters_pass a = true ->
       names_extractable a = false ->
       emitted (Preorder_events (before ++ ast.N_AssignStmt a :: after)
                  nodeFilter run_func1) pass
       = emitted (Preorder_events (before ++ after) nodeFilter run_func1) pass).
Proof.
  do 6 (split; [reflexivity |]).
  intros H.
  specialize (H [] [ast.N_AssignStmt (incorrect_at 20)] (pointers_at 1) (pass_of [])
                eq_refl eq_refl).
  discriminate H.
Qed.

(** The same defect on every tree: when the three filters pass but the
    first target or the element type is not a plain identifier, the
    callback panics with the interface-conversion error that names the
    offending expression type, and the pass is left as it was. A traversal
    that reaches the node ends there with the same error, keeping what the
    earlier nodes reported and visiting none of the later nodes, and [run]
    does not return. *)
Lemma unchecked_assertion_panics_and_ends_traversal
    (a : ast.AssignStmt) (target : ast.Expr) (targets : list ast.Expr)
    (lbrack : token.Pos) (len : option ast.Expr) (elt : ast.Expr)
    (lbrace rbrace : token.Pos) (values : list ast.Expr) :
  ast.Lhs a = target :: targets ->
  ast.Rhs a = ast.CompositeLit (Some (ast.ArrayType lbrack len elt))
                lbrace None rbrace :: values ->
  is_Ident target = false \/ is_Ident elt = false ->
  let err := InterfaceConversion "ast.Expr"
               (ast.Expr_typeName (if is_Ident target then elt else target))
               "*ast.Ident" in
  (forall pass, run_func1 (ast.N_AssignStmt a) pass = (Panicked err, pass)) /\
  (forall before after pass,
     Preorder_events (before ++ ast.N_AssignStmt a :: after) nodeFilter run_func1 pass
     = match Preorder_events before nodeFilter run_func1 pass with
       | (Returned _, pass') => (Panicked err, pass')
       | (Panicked e, pass') => (Panicked e, pass')
       end) /\
  (forall before after reported,
     exists e,
       fst (run {| analysis.ResultOf_inspect :=
                     {| inspector.events := before ++ ast.N_AssignStmt a :: after |};
                   analysis.reported := reported |})
       = Panicked e).
Proof.
  intros Hl Hr Hbad err.
  assert (Hd : is_Ident target && is_Ident elt = false).
  { destruct Hbad as [-> | ->]; [reflexivity | apply andb_false_r]. }
  assert (Hcall : forall pass, run_func1 (ast.N_AssignStmt a) pass = (Panicked err, pass)).
  { intros pass. apply (run_func1_defect a _ _ _ _ _ _ _ _ _ pass Hl Hr eq_refl Hd). }
  assert (Htrav : forall before after pass,
     Preorder_events (before ++ ast.N_AssignStmt a :: after) nodeFilter run_func1 pass
     = match Preorder_events before nodeFilter run_func1 pass with
       | (Returned _, pass') => (Panicked err, pass')
       | (Panicked e, pass') => (Panicked e, pass')
       end).
  { intros before after pass. rewrite Preorder_events_app.
    destruct (Preorder_events before nodeFilter run_func1 pass) as [[u | e] pass'];
      [| reflexivity].
    cbn [Preorder_events]. unfold bind.
    change (typeMatches nodeFilter (ast.N_AssignStmt a)) with true.
    cbv iota. now rewrite Hcall. }
  repeat split; [exact Hcall | exact Htrav |].
  intros before after reported.
  unfold run, bind, ResultOf_inspect, Preorder.
  cbn [analysis.ResultOf_inspect inspector.events].
  rewrite Htrav.
  destruct (Preorder_events before nodeFilter run_func1 _) as [[u | e] pass'];
    eexists; reflexivity.
Qed.

Lemma unchecked_assertion_witness_pointers :
  (forall pass,
     run_func1 (ast.N_AssignStmt (pointers_at 1)) pass
     = (Panicked (InterfaceConversion "ast.Expr" "*ast.StarExpr" "*ast.Ident"), pass)) /\
  (forall after reported,
     exists e,
       fst (run {| analysis.ResultOf_inspect :=
                     {| inspector.events :=
                          [] ++ ast.N_AssignStmt (pointers_at 1) :: after |};
                   analysis.reported := reported |})
       = Panicked e).
Proof.
  destruct (unchecked_assertion_panics_and_ends_traversal (pointers_at 1)
              (ast.Ident 1 "x") [] 6 None
              (ast.StarExpr 8 (ast.Ident 9 "int")) 12 13 []
              eq_refl eq_refl (or_intror eq_refl))
    as (Hcall & _ & Hrun).
  split; [exact Hcall | exact (Hrun [])].
Defined.

(** C4, on the code: [a, b := []int{}, []int{}] is reported. The callback
    looks at the first value and the first target only, and the suggested
    edit replaces the whole statement, both targets and both values, by
    [var a []int]. *)
Theorem C4_pair_assignment_is_reported :
  run_func1 (ast.N_AssignStmt (pair_at 1)) (pass_of [])
  = (Returned tt,
     add_reports (pass_of [])
       [ {| Diagnostic.Pos := 1;
            Diagnostic.Message := "incorrect empty slice declaration";
            Diagnostic.SuggestedFixes :=
              [ {| SuggestedFix.Message := "use var";
                   SuggestedFix.TextEdits :=
                     [ {| TextEdit.Pos := 1;
                          TextEdit.End_ := 25;
                          TextEdit.NewText := "var a []int" |} ] |} ] |} ]).
Proof. reflexivity. Qed.

(** C5, on the code: [x := [3]int{}] is reported. [*ast.ArrayType] is the
    node of slice types and of array types with a length alike, and the
    callback does not look at [Len]; the suggested edit turns the array of
    three integers into a slice, [var x []int]. *)
Theorem C5_fixed_size_array_is_reported :
  run_func1 (ast.N_AssignStmt (array3_at 1)) (pass_of [])
  = (Returned tt,
     add_reports (pass_of [])
       [ {| Diagnostic.Pos := 1;
            Diagnostic.Message := "incorrect empty slice declaration";
            Diagnostic.SuggestedFixes :=
              [ {| SuggestedFix.Message := "use var";
                   SuggestedFix.TextEdits :=
                     [ {| TextEdit.Pos := 1;
                          TextEdit.End_ := 14;
                          TextEdit.NewText := "var x []int" |} ] |} ] |} ]).
Proof. reflexivity. Qed.

(** C7: the outcome of the callback and the diagnostics it hands to the
    sink are the same whatever the pass already holds, in particular when
    the callback runs a second time right after the first; and what
    [report] emits is determined by the span of the node and the two names:
    there is no hidden state. *)
Theorem C7_output_is_a_function_of_the_input :
  (forall (n : ast.Node) (pass1 pass2 : analysis.Pass),
     fst (run_func1 n pass1) = fst (run_func1 n pass2) /\
     emitted (run_func1 n) pass1 = emitted (run_func1 n) pass2) /\
  (forall (n : ast.Node) (pass : analysis.Pass),
     fst (run_func1 n (snd (run_func1 n pass))) = fst (run_func1 n pass) /\
     emitted (run_func1 n) (snd (run_func1 n pass)) = emitted (run_func1 n) pass) /\
  (forall (n : ast.Node) (sliceName eltName : string) (pass : analysis.Pass),
     emitted (report n sliceName eltName) pass
     = match ast.Node_Pos n, ast.Node_End n with
       | Returned start, Returned stop =>
           [empty_slice_diagnostic start stop sliceName eltName]
       | _, _ => []
       end).
Proof.
  assert (Hfun : forall n pass1 pass2,
            fst (run_func1 n pass1) = fst (run_func1 n pass2) /\
            emitted (run_func1 n) pass1 = emitted (run_func1 n) pass2).
  { intros n pass1 pass2. destruct (run_func1_effect n) as (r & ds & _ & Hn).
    rewrite (emitted_add_reports _ _ _ _ (Hn pass1)).
    rewrite (emitted_add_reports _ _ _ _ (Hn pass2)).
    now rewrite !Hn. }
  split; [exact Hfun | split].
  - intros n pass. apply Hfun.
  - intros n sliceName eltName pass.
    apply emitted_add_reports with
      (r := match ast.Node_Pos n, ast.Node_End n with
            | Returned _, Returned _ => Returned tt
            | Returned _, Panicked e => Panicked e
            | Panicked e, _ => Panicked e
            end).
    unfold report, bind, lift, Report.
    destruct (ast.Node_Pos n) as [start | e];
      [| now rewrite add_reports_nil].
    destruct (ast.Node_End n) as [stop | e];
      [| now rewrite add_reports_nil].
    now rewrite Sprintf_var_decl.
Qed.



(** C9: the callback, [report] and a whole run leave the syntax tree held
    by the pass exactly as it was, whether they return or panic; the only
    part of the pass they change is the list of reported diagnostics. *)
Theorem C9_syntax_tree_is_not_modified :
  (forall (n : ast.Node) (pass : analysis.Pass),
     analysis.ResultOf_inspect (snd (run_func1 n pass))
     = analysis.ResultOf_inspect pass) /\
  (forall (n : ast.Node) (sliceName eltName : string) (pass : analysis.Pass),
     analysis.ResultOf_inspect (snd (report n sliceName eltName pass))
     = analysis.ResultOf_inspect pass) /\
  (forall (pass : analysis.Pass),
     analysis.ResultOf_inspect (snd (run pass)) = analysis.ResultOf_inspect pass).
Proof.
  repeat split.
  - intros n pass. destruct (run_func1_effect n) as (r & ds & _ & Hn).
    now rewrite Hn.
  - intros n sliceName eltName pass. unfold report, bind, lift, Report.
    destruct (ast.Node_Pos n); [| reflexivity].
    destruct (ast.Node_End n); reflexivity.
  - intros pass. unfold run, bind, ResultOf_inspect, Preorder, ret.
    destruct (Preorder_events_effect
                (inspector.events (analysis.ResultOf_inspect pass)) pass)
      as (r & ds & Hrun).
    rewrite Hrun. destruct r; reflexivity.
Qed.

(** C10: the callback never reads [Tok] (nor [TokPos]): replacing them
    leaves its behaviour unchanged, so [x = []int{}] is reported like a
    short variable declaration, with the replacement [var x []int]. *)
Theorem C10_assignment_token_is_not_inspected :
  (forall (a : ast.AssignStmt) (tokPos : token.Pos) (tok : token.Token)
          (pass : analysis.Pass),
     run_func1
       (ast.N_AssignStmt {| ast.Lhs := ast.Lhs a; ast.TokPos := tokPos;
                            ast.Tok := tok; ast.Rhs := ast.Rhs a |}) pass
     = run_func1 (ast.N_AssignStmt a) pass) /\
  ast.Tok (reassigned_at 1) = token.ASSIGN /\
  run_func1 (ast.N_AssignStmt (reassigned_at 1)) (pass_of [])
  = (Returned tt,
     add_reports (pass_of [])
       [ {| Diagnostic.Pos := 1;
            Diagnostic.Message := "incorrect empty slice declaration";
            Diagnostic.SuggestedFixes :=
              [ {| SuggestedFix.Message := "use var";
                   SuggestedFix.TextEdits :=
                     [ {| TextEdit.Pos := 1;
                          TextEdit.End_ := 12;
                          TextEdit.NewText := "var x []int" |} ] |} ] |} ]).
Proof.
  split; [| split; reflexivity].
  intros [lhs tokPos0 tok0 rhs] tokPos tok pass. reflexivity.
Qed.

(* ===================================================================== *)
(** ** The callback and the run, statement by statement *)

Lemma diagnostic_of_no_match (a : ast.AssignStmt) :
  filters_pass a = false -> diagnostic_of a = [].
Proof.
  unfold filters_pass, diagnostic_of.
  destruct (ast.Lhs a) as [|target targets]; [reflexivity |].
  destruct target; try reflexivity.
  destruct (ast.Rhs a) as [|value values]; [reflexivity |].
  destruct value as [ | | | ty lbrace elts rbrace | | | | | | ]; try reflexivity.
  destruct ty as [[ | | | | | | | | lbrack len elt | ]|]; try reflexivity.
  destruct elt; try reflexivity.
  destruct elts; [reflexivity | discriminate].
Qed.

Lemma typeMatches_AssignStmt (a : ast.AssignStmt) :
  typeMatches nodeFilter (ast.N_AssignStmt a) = true.
Proof. reflexivity. Qed.

Lemma typeMatches_other (n : ast.Node) :
  as_AssignStmt n = None -> typeMatches nodeFilter n = false.
Proof.
  destruct n as [a | declPos declEnd | x | e]; intros H;
    [discriminate H | reflexivity | reflexivity | destruct e; reflexivity].
Qed.

(** One call on an assignment: either it panics before reporting, with one
    of the two extraction errors, or it returns having reported what the
    statement is owed. *)
Lemma run_func1_spec (a : ast.AssignStmt) (pass : analysis.Pass) :
  exists r : Result unit,
    run_func1 (ast.N_AssignStmt a) pass
    = (r, add_reports pass (if crashes a then [] else diagnostic_of a))
    /\ (if crashes a
        then exists err, r = Panicked err /\ extraction_error err
        else r = Returned tt).
Proof.
  unfold crashes.
  destruct (ast.Rhs a) as [|value values] eqn:Hr.
  { eexists; split.
    - rewrite add_reports_nil. run_callback. rewrite Hr. reflexivity.
    - eexists; split; [reflexivity | now left]. }
  destruct (filters_pass a) eqn:Hf; cbn [andb].
  2:{ exists (Returned tt); split; [| reflexivity].
      rewrite (diagnostic_of_no_match a Hf), add_reports_nil.
      now apply (run_func1_no_match a value values). }
  unfold filters_pass in Hf. rewrite Hr in Hf.
  destruct value as [ | | | ty lbrace elts rbrace | | | | | | ]; try discriminate Hf.
  destruct elts as [elts|]; [discriminate Hf |].
  destruct ty as [[ | | | | | | | | lbrack len elt | ]|]; try discriminate Hf.
  unfold names_extractable. rewrite Hr.
  destruct (ast.Lhs a) as [|target targets] eqn:Hl.
  { cbn [negb]. eexists; split.
    - rewrite add_reports_nil. run_callback. rewrite Hr, index_first.
      run_callback. rewrite Hl. reflexivity.
    - eexists; split; [reflexivity | now left]. }
  destruct (is_Ident target && is_Ident elt) eqn:Hd; cbn [negb].
  - destruct target as [ | namePos name | | | | | | | | ]; try discriminate Hd.
    destruct elt as [ | eltPos eltName | | | | | | | | ]; try discriminate Hd.
    exists (Returned tt); split; [| reflexivity].
    unfold diagnostic_of. rewrite Hl, Hr.
    apply (run_func1_match a _ _ _ _ _ _ _ _ _ _ pass Hl Hr).
  - eexists; split.
    + rewrite add_reports_nil.
      apply (run_func1_defect a _ _ _ _ _ _ _ _ _ pass Hl Hr eq_refl Hd).
    + eexists; split; [reflexivity |]. right. eexists; split; [reflexivity |].
      destruct target; cbn [is_Ident andb] in *;
        try (cbn; discriminate).
      destruct elt; cbn [is_Ident] in *; try (cbn; discriminate).
Qed.

(** The traversal with [run_func1]: the nodes before the first panic are
    served in order, and the traversal returns exactly when no statement
    makes the callback panic. *)
Lemma Preorder_events_spec (nodes : list ast.Node) :
  forall pass : analysis.Pass,
  exists r : Result unit,
    Preorder_events nodes nodeFilter run_func1 pass
    = (r, add_reports pass (flat_map diagnostics_of (before_crash nodes)))
    /\ (if existsb node_crashes nodes
        then exists err, r = Panicked err /\ extraction_error err
        else r = Returned tt).
Proof.
  induction nodes as [|n nodes IH]; intros pass.
  { exists (Returned tt). now rewrite add_reports_nil. }
  cbn [Preorder_events before_crash existsb]. unfold bind.
  destruct n as [a | declPos declEnd | x | e].
  - rewrite typeMatches_AssignStmt. cbn [node_crashes].
    destruct (run_func1_spec a pass) as (r & Hrun & Hr). rewrite Hrun.
    destruct (crashes a); cbn [orb].
    + destruct Hr as (err & -> & Herr). exists (Panicked err). split; [reflexivity |].
      now exists err.
    + subst r. destruct (IH (add_reports pass (diagnostic_of a))) as (r & Hrest & Hr).
      exists r. split; [| exact Hr].
      rewrite Hrest, add_reports_app. reflexivity.
  - apply IH.
  - apply IH.
  - rewrite (typeMatches_other (ast.N_Expr e) eq_refl). apply IH.
Qed.

Lemma existsb_node_crashes (nodes : list ast.Node) :
  existsb node_crashes nodes = false
  <-> forall a, In (ast.N_AssignStmt a) nodes -> crashes a = false.
Proof.
  split.
  - intros H a Hin. destruct (crashes a) eqn:Hc; [| reflexivity].
    assert (Hex : existsb node_crashes nodes = true).
    { apply existsb_exists. exists (ast.N_AssignStmt a). now split. }
    congruence.
  - intros H. destruct (existsb node_crashes nodes) eqn:Hex; [| reflexivity].
    apply existsb_exists in Hex. destruct Hex as (n & Hin & Hn).
    destruct n as [a | | | ]; try discriminate Hn.
    cbn [node_crashes] in Hn. rewrite (H a Hin) in Hn. discriminate Hn.
Qed.

Lemma before_crash_all (nodes : list ast.Node) :
  existsb node_crashes nodes = false -> before_crash nodes = nodes.
Proof.
  induction nodes as [|n nodes IH]; [reflexivity |].
  cbn [existsb before_crash]. intros H. apply orb_false_elim in H.
  destruct H as [Hn Hrest]. rewrite Hn. now rewrite (IH Hrest).
Qed.

(** What [run] does, in one equation. *)
Lemma run_spec (pass : analysis.Pass) :
  exists r : Result (option unit * option string),
    run pass
    = (r, add_reports pass
            (flat_map diagnostics_of
               (before_crash (inspector.events (analysis.ResultOf_inspect pass)))))
    /\ (if existsb node_crashes (inspector.events (analysis.ResultOf_inspect pass))
        then exists err, r = Panicked err /\ extraction_error err
        else r = Returned (None, None)).
Proof.
  unfold run, bind, ResultOf_inspect, Preorder, ret.
  destruct (Preorder_events_spec
              (inspector.events (analysis.ResultOf_inspect pass)) pass)
    as (r & Hrun & Hr).
  rewrite Hrun.
  destruct (existsb node_crashes _).
  - destruct Hr as (err & -> & Herr). exists (Panicked err).
    split; [reflexivity | now exists err].
  - subst r. now exists (Returned (None, None)).
Qed.

Lemma diagnostic_of_shape (a : ast.AssignStmt) :
  Forall has_one_var_fix (diagnostic_of a).
Proof.
  unfold diagnostic_of.
  destruct (ast.Lhs a) as [|target targets]; [constructor |].
  destruct target as [ | namePos name | | | | | | | | ]; try constructor.
  destruct (ast.Rhs a) as [|value values]; [constructor |].
  destruct value as [ | | | ty lbrace elts rbrace | | | | | | ]; try constructor.
  destruct ty as [[ | | | | | | | | lbrack len elt | ]|]; try constructor.
  destruct elt as [ | eltPos eltName | | | | | | | | ]; try constructor.
  destruct elts; constructor; [| constructor].
  split; [reflexivity |]. eexists _, name, eltName. reflexivity.
Qed.

(* ===================================================================== *)
(** ** Further properties of [run] and [report] *)

(** X1: on an assignment statement the callback returns exactly when the
    statement has a first value and, if that value passes the three
    filters, the first target and the element type are identifiers.
    Whenever it panics, nothing has been reported and the error is an
    index out of range [0] with length 0 or a failed conversion of an
    [ast.Expr] to [*ast.Ident]. *)
Theorem X1_callback_returns_unless_extraction_fails
    (a : ast.AssignStmt) (pass : analysis.Pass) :
  (fst (run_func1 (ast.N_AssignStmt a) pass) = Returned tt <-> crashes a = false)
  /\ (forall err,
        fst (run_func1 (ast.N_AssignStmt a) pass) = Panicked err ->
        extraction_error err /\ snd (run_func1 (ast.N_AssignStmt a) pass) = pass).
Proof.
  destruct (run_func1_spec a pass) as (r & Hrun & Hr). rewrite Hrun. cbn [fst snd].
  destruct (crashes a).
  - destruct Hr as (err & -> & Herr). split.
    + split; discriminate.
    + intros err' [= <-]. split; [exact Herr | apply add_reports_nil].
  - subst r. split; [now split | discriminate].
Qed.

(** X2: [run] returns, with both results nil, exactly when the callback
    panics on no assignment statement of the tree. *)
Theorem X2_run_returns_iff_no_statement_crashes (pass : analysis.Pass) :
  fst (run pass) = Returned (None, None)
  <-> (forall a,
         In (ast.N_AssignStmt a) (inspector.events (analysis.ResultOf_inspect pass)) ->
         crashes a = false).
Proof.
  destruct (run_spec pass) as (r & Hrun & Hr). rewrite Hrun. cbn [fst].
  rewrite <- existsb_node_crashes.
  destruct (existsb node_crashes _).
  - destruct Hr as (err & -> & _). split; discriminate.
  - subst r. now split.
Qed.

(** X3: [run] keeps what was reported before it and appends, in traversal
    order, the diagnostic of every statement in front of the first panic:
    one per statement whose first value is an array-typed literal with nil
    elements over an identifier and whose first target is an identifier.
    When no statement panics these are the diagnostics of the whole tree. *)
Theorem X3_run_reports_in_traversal_order (pass : analysis.Pass) :
  snd (run pass)
  = add_reports pass
      (flat_map diagnostics_of
         (before_crash (inspector.events (analysis.ResultOf_inspect pass))))
  /\ ((forall a,
         In (ast.N_AssignStmt a) (inspector.events (analysis.ResultOf_inspect pass)) ->
         crashes a = false) ->
      run pass
      = (Returned (None, None),
         add_reports pass
           (flat_map diagnostics_of
              (inspector.events (analysis.ResultOf_inspect pass))))).
Proof.
  destruct (run_spec pass) as (r & Hrun & Hr). rewrite Hrun. cbn [snd].
  split; [reflexivity |].
  intros Hsafe. apply existsb_node_crashes in Hsafe.
  rewrite Hsafe in Hr. subst r. now rewrite (before_crash_all _ Hsafe).
Qed.






(** X5: every diagnostic that [run] hands to the sink has the message
    "incorrect empty slice declaration" and exactly one suggested fix,
    "use var", with exactly one edit; the edit starts at the position of
    the diagnostic and its text is "var ", a name, " []" and a name. *)
Theorem X5_every_reported_diagnostic_has_one_var_fix (pass : analysis.Pass) :
  Forall has_one_var_fix (emitted run pass).
Proof.
  destruct (run_spec pass) as (r & Hrun & _).
  rewrite (emitted_add_reports _ _ _ _ Hrun). clear Hrun.
  induction (before_crash (inspector.events (analysis.ResultOf_inspect pass)))
    as [|n nodes IH]; [constructor |].
  cbn [flat_map]. apply Forall_app. split; [| exact IH].
  destruct n; try constructor. apply diagnostic_of_shape.
Qed.

(** X6: [report] on an assignment statement spans from the start of the
    first target to the end of the last value, whatever the number of
    targets and values. Without a target it panics with index out of range
    [0], and with targets but no value with index out of range [-1]; in
    both cases before anything reaches the sink. *)
Theorem X6_report_spans_first_target_to_last_value
    (a : ast.AssignStmt) (sliceName eltName : string) (pass : analysis.Pass) :
  report (ast.N_AssignStmt a) sliceName eltName pass
  = match ast.Lhs a, ast.Rhs a with
    | [], _ => (Panicked (IndexOutOfRange 0 0), pass)
    | _ :: _, [] => (Panicked (IndexOutOfRange (-1) 0), pass)
    | target :: _, value :: values =>
        (Returned tt,
         add_reports pass
           [empty_slice_diagnostic (ast.Expr_Pos target)
              (ast.Expr_End (last values value)) sliceName eltName])
    end.
Proof.
  destruct (ast.Lhs a) as [|target targets] eqn:Hl.
  { unfold report, bind, lift. cbn [ast.Node_Pos].
    unfold ast.AssignStmt_Pos. now rewrite Hl. }
  destruct (ast.Rhs a) as [|value values] eqn:Hr.
  { unfold report, bind, lift. cbn [ast.Node_Pos ast.Node_End].
    rewrite (AssignStmt_Pos_cons _ _ _ Hl).
    unfold ast.AssignStmt_End. now rewrite Hr. }
  apply (report_AssignStmt a _ _ _ _ sliceName eltName pass Hl Hr).
Qed.

(* ===================================================================== *)
(** ** The first version against the final one *)

Lemma tutorial_run_func1_AssignStmt (a : ast.AssignStmt) (pass : analysis.Pass) :
  tutorial_run_func1 (ast.N_AssignStmt a) pass
  = match ast.Rhs a with
    | [] => (Crashed (RuntimeErr (IndexOutOfRange 0 0)), pass)
    | _ :: _ =>
        if filters_pass a
        then match ast.Lhs a with
             | [] => (Crashed (RuntimeErr (IndexOutOfRange 0 0)), pass)
             | _ :: _ =>
                 (Completed tt,
                  add_reports pass (tutorial_diagnostics_of (ast.N_AssignStmt a)))
             end
        else (Completed tt, pass)
    end.
Proof.
  destruct a as [lhs tokPos tok rhs].
  unfold filters_pass, tutorial_diagnostics_of, filters_pass. cbn [ast.Rhs ast.Lhs].
  destruct rhs as [|value values]; [reflexivity |].
  destruct value as [ | | | ty lbrace elts rbrace | | | | | | ]; try reflexivity.
  destruct elts as [elts|]; [reflexivity |].
  destruct ty as [[ | | | | | | | | lbrack len elt | ]|]; try reflexivity.
  destruct lhs as [|target targets]; reflexivity.
Qed.

Lemma emitted1_add_reports {A} (c : M1 A) (pass : analysis.Pass) (r : Outcome A)
    (ds : list Diagnostic.t) :
  c pass = (r, add_reports pass ds) -> emitted1 c pass = ds.
Proof.
  intros H. unfold emitted1. rewrite H. simpl.
  rewrite skipn_app, skipn_all, Nat.sub_diag. reflexivity.
Qed.

(** The traversal with the first callback over statements of parsed shape. *)
Lemma Preorder_events1_parsed (nodes : list ast.Node) :
  forallb parsed_shape nodes = true ->
  forall pass,
    Preorder_events1 nodes nodeFilter tutorial_run_func1 pass
    = (Completed tt, add_reports pass (flat_map tutorial_diagnostics_of nodes)).
Proof.
  induction nodes as [|n nodes IH]; intros Hshape pass.
  { unfold Preorder_events1, ret1. now rewrite add_reports_nil. }
  cbn [forallb] in Hshape. apply andb_prop in Hshape. destruct Hshape as [Hn Hrest].
  cbn [Preorder_events1 flat_map]. unfold bind1.
  destruct n as [a | declPos declEnd | x | e].
  - rewrite typeMatches_AssignStmt, tutorial_run_func1_AssignStmt.
    cbn [parsed_shape] in Hn. cbn [tutorial_diagnostics_of].
    destruct (ast.Rhs a) as [|value values];
      [destruct (ast.Lhs a); discriminate Hn |].
    destruct (ast.Lhs a) as [|target targets]; [discriminate Hn |].
    destruct (filters_pass a).
    + rewrite (IH Hrest), add_reports_app. reflexivity.
    + rewrite (IH Hrest). reflexivity.
  - cbn. apply (IH Hrest).
  - cbn. apply (IH Hrest).
  - rewrite (typeMatches_other (ast.N_Expr e) eq_refl). unfold ret1.
    cbn [tutorial_diagnostics_of app]. apply (IH Hrest).
Qed.

(** The traversal with the first callback never dereferences a nil pointer. *)
Lemma Preorder_events1_no_nil (nodes : list ast.Node) :
  forall pass,
    fst (Preorder_events1 nodes nodeFilter tutorial_run_func1 pass)
    <> Crashed NilPointerDereference.
Proof.
  induction nodes as [|n nodes IH]; intros pass; [discriminate |].
  cbn [Preorder_events1]. unfold bind1.
  destruct n as [a | declPos declEnd | x | e].
  - rewrite typeMatches_AssignStmt, tutorial_run_func1_AssignStmt.
    destruct (ast.Rhs a); [discriminate |].
    destruct (filters_pass a); [| apply IH].
    destruct (ast.Lhs a); [discriminate | apply IH].
  - apply IH.
  - apply IH.
  - rewrite (typeMatches_other (ast.N_Expr e) eq_refl). apply IH.
Qed.

(** X7: the first version never panics on a type assertion: on a
    statement with at least one target and one value it returns, having
    reported one diagnostic without a fix at the start of the first target
    when the three filters pass and nothing otherwise, whatever the first
    target and the element type are. *)
Theorem X7_first_version_reports_whenever_filters_pass
    (a : ast.AssignStmt) (target : ast.Expr) (targets : list ast.Expr)
    (value : ast.Expr) (values : list ast.Expr) (pass : analysis.Pass) :
  ast.Lhs a = target :: targets ->
  ast.Rhs a = value :: values ->
  tutorial_run_func1 (ast.N_AssignStmt a) pass
  = (Completed tt,
     add_reports pass
       (if filters_pass a
        then [ {| Diagnostic.Pos := ast.Expr_Pos target;
                  Diagnostic.Message := "incorrect empty slice declaration";
                  Diagnostic.SuggestedFixes := [] |} ]
        else [])).
Proof.
  intros Hl Hr. rewrite tutorial_run_func1_AssignStmt, Hr, Hl.
  cbn [tutorial_diagnostics_of]. rewrite Hl.
  destruct (filters_pass a); [reflexivity | now rewrite add_reports_nil].
Qed.

Lemma X7_witness_pointers :
  tutorial_run_func1 (ast.N_AssignStmt (pointers_at 1)) (pass_of [])
  = (Completed tt,
     add_reports (pass_of [])
       [ {| Diagnostic.Pos := 1;
            Diagnostic.Message := "incorrect empty slice declaration";
            Diagnostic.SuggestedFixes := [] |} ]).
Proof.
  exact (X7_first_version_reports_whenever_filters_pass (pointers_at 1)
           (ast.Ident 1 "x") []
           (ast.CompositeLit
              (Some (ast.ArrayType 6 None (ast.StarExpr 8 (ast.Ident 9 "int"))))
              12 None 13)
           [] (pass_of []) eq_refl eq_refl).
Defined.

(** X8: adding the suggested fix changed no diagnostic: whenever the final
    callback returns on an assignment statement, the first version
    returns too and reports the same diagnostics, same position and same
    message, without the fix. *)
Theorem X8_final_version_agrees_with_first
    (a : ast.AssignStmt) (pass : analysis.Pass) :
  fst (run_func1 (ast.N_AssignStmt a) pass) = Returned tt ->
  tutorial_run_func1 (ast.N_AssignStmt a) pass
  = (Completed tt,
     add_reports pass
       (map without_fixes (emitted (run_func1 (ast.N_AssignStmt a)) pass))).
Proof.
  intros Hret.
  destruct (run_func1_spec a pass) as (r & Hrun & Hr).
  rewrite (emitted_add_reports _ _ _ _ Hrun).
  rewrite Hrun in Hret. cbn [fst] in Hret. subst r.
  rewrite tutorial_run_func1_AssignStmt.
  unfold crashes in *.
  destruct (ast.Rhs a) as [|value values] eqn:Hrhs.
  { destruct Hr as (err & Hr & _). discriminate Hr. }
  destruct (filters_pass a) eqn:Hf; cbn [andb] in *.
  2:{ now rewrite (diagnostic_of_no_match a Hf), add_reports_nil. }
  destruct (names_extractable a) eqn:Hn; cbn [negb] in Hr.
  2:{ destruct Hr as (err & Hr & _). discriminate Hr. }
  unfold names_extractable in Hn. unfold filters_pass in Hf.
  unfold diagnostic_of. cbn [tutorial_diagnostics_of].
  unfold filters_pass. rewrite Hrhs in *.
  destruct (ast.Lhs a) as [|target targets]; [discriminate Hn |].
  destruct value as [ | | | ty lbrace elts rbrace | | | | | | ]; try discriminate Hf.
  destruct elts as [elts|]; [discriminate Hf |].
  destruct ty as [[ | | | | | | | | lbrack len elt | ]|]; try discriminate Hf.
  destruct target as [ | namePos name | | | | | | | | ]; try discriminate Hn.
  destruct elt as [ | eltPos eltName | | | | | | | | ]; try discriminate Hn.
  reflexivity.
Qed.

Lemma X8_witness_incorrect :
  tutorial_run_func1 (ast.N_AssignStmt (incorrect_at 72)) (pass_of [])
  = (Completed tt,
     add_reports (pass_of [])
       (map without_fixes
          (emitted (run_func1 (ast.N_AssignStmt (incorrect_at 72))) (pass_of [])))).
Proof.
  exact (X8_final_version_agrees_with_first (incorrect_at 72) (pass_of []) eq_refl).
Defined.

(** X9: on a tree whose assignment statements all have at least one target
    and one value, as the parser builds them, the first version of [run]
    always returns; it keeps the earlier reports and appends, in traversal
    order, one diagnostic without a fix per statement that passes the three
    filters. *)
Theorem X9_first_version_returns_on_parsed_trees (pass : analysis.Pass) :
  forallb parsed_shape (inspector.events (analysis.ResultOf_inspect pass)) = true ->
  tutorial_run pass
  = (Completed (None, None),
     add_reports pass
       (flat_map tutorial_diagnostics_of
          (inspector.events (analysis.ResultOf_inspect pass)))).
Proof.
  intros Hshape. unfold tutorial_run, bind1, from_M, ResultOf_inspect, ret1.
  now rewrite (Preorder_events1_parsed _ Hshape pass).
Qed.

Lemma X9_witness_test_go :
  tutorial_run (pass_of test_go)
  = (Completed (None, None),
     add_reports (pass_of test_go)
       [ {| Diagnostic.Pos := 72;
            Diagnostic.Message := "incorrect empty slice declaration";
            Diagnostic.SuggestedFixes := [] |} ]).
Proof.
  exact (X9_first_version_returns_on_parsed_trees (pass_of test_go) eq_refl).
Defined.

(** X10: called on a node that is not an assignment statement, the first
    callback dereferences the nil pointer its two-result assertion left;
    under the node filter this never happens: no run of the first version
    ends in a nil pointer dereference. *)
Theorem X10_first_version_never_dereferences_nil :
  (forall (n : ast.Node) (pass : analysis.Pass),
     as_AssignStmt n = None ->
     tutorial_run_func1 n pass = (Crashed NilPointerDereference, pass))
  /\ (forall pass : analysis.Pass,
        fst (tutorial_run pass) <> Crashed NilPointerDereference).
Proof.
  split.
  - intros n pass Hn. unfold tutorial_run_func1, bind1, deref. now rewrite Hn.
  - intros pass. unfold tutorial_run, bind1, from_M, ResultOf_inspect, ret1.
    cbn [fst snd].
    pose proof (Preorder_events1_no_nil
                  (inspector.events (analysis.ResultOf_inspect pass)) pass) as Hno.
    destruct (Preorder_events1 _ nodeFilter tutorial_run_func1 pass) as [[u | p] pass'];
      cbn [fst] in *; [discriminate |].
    intros [= ->]. now apply Hno.
Qed.

Lemma tutorial_run_func1_safe (a : ast.AssignStmt) (pass : analysis.Pass) :
  crashes a = false ->
  tutorial_run_func1 (ast.N_AssignStmt a) pass
  = (Completed tt, add_reports pass (map without_fixes (diagnostic_of a))).
Proof.
  intros Hsafe. rewrite tutorial_run_func1_AssignStmt. unfold crashes in Hsafe.
  destruct (ast.Rhs a) as [|value values] eqn:Hrhs; [discriminate Hsafe |].
  destruct (filters_pass a) eqn:Hf; cbn [andb] in Hsafe.
  2:{ now rewrite (diagnostic_of_no_match a Hf), add_reports_nil. }
  apply negb_false_iff in Hsafe.
  unfold names_extractable in Hsafe. unfold filters_pass in Hf.
  unfold diagnostic_of. cbn [tutorial_diagnostics_of].
  unfold filters_pass. rewrite Hrhs in *.
  destruct (ast.Lhs a) as [|target targets]; [discriminate Hsafe |].
  destruct value as [ | | | ty lbrace elts rbrace | | | | | | ]; try discriminate Hf.
  destruct elts as [elts|]; [discriminate Hf |].
  destruct ty as [[ | | | | | | | | lbrack len elt | ]|]; try discriminate Hf.
  destruct target as [ | namePos name | | | | | | | | ]; try discriminate Hsafe.
  destruct elt as [ | eltPos eltName | | | | | | | | ]; try discriminate Hsafe.
  reflexivity.
Qed.

Lemma Preorder_events1_safe (nodes : list ast.Node) :
  existsb node_crashes nodes = false ->
  forall pass,
    Preorder_events1 nodes nodeFilter tutorial_run_func1 pass
    = (Completed tt,
       add_reports pass (map without_fixes (flat_map diagnostics_of nodes))).
Proof.
  induction nodes as [|n nodes IH]; intros Hsafe pass.
  { unfold Preorder_events1, ret1. now rewrite add_reports_nil. }
  cbn [existsb] in Hsafe. apply orb_false_elim in Hsafe. destruct Hsafe as [Hn Hrest].
  cbn [Preorder_events1 flat_map]. unfold bind1. rewrite map_app.
  destruct n as [a | declPos declEnd | x | e].
  - rewrite typeMatches_AssignStmt, (tutorial_run_func1_safe a pass Hn).
    rewrite (IH Hrest), add_reports_app. reflexivity.
  - cbn. apply (IH Hrest).
  - cbn. apply (IH Hrest).
  - rewrite (typeMatches_other (ast.N_Expr e) eq_refl). unfold ret1.
    cbn [diagnostics_of map app]. apply (IH Hrest).
Qed.

(** X11: only the first target and the first value count, and the length
    of the array type does not: a statement whose first target is an
    identifier and whose first value is an array-typed literal with nil
    elements over an identifier is reported whatever its further targets
    and values and whatever [Len] is. The edit runs from the first target
    to the end of the last value and declares the first target alone. *)
Theorem X11_only_first_target_and_first_value_count
    (a : ast.AssignStmt) (namePos : token.Pos) (name : string)
    (targets : list ast.Expr) (lbrack : token.Pos) (len : option ast.Expr)
    (eltPos : token.Pos) (eltName : string) (lbrace rbrace : token.Pos)
    (values : list ast.Expr) (pass : analysis.Pass) :
  ast.Lhs a = ast.Ident namePos name :: targets ->
  ast.Rhs a = ast.CompositeLit
                (Some (ast.ArrayType lbrack len (ast.Ident eltPos eltName)))
                lbrace None rbrace :: values ->
  run_func1 (ast.N_AssignStmt a) pass
  = (Returned tt,
     add_reports pass
       [ {| Diagnostic.Pos := namePos;
            Diagnostic.Message := "incorrect empty slice declaration";
            Diagnostic.SuggestedFixes :=
              [ {| SuggestedFix.Message := "use var";
                   SuggestedFix.TextEdits :=
                     [ {| TextEdit.Pos := namePos;
                          TextEdit.End_ :=
                            ast.Expr_End
                              (last values
                                 (ast.CompositeLit
                                    (Some (ast.ArrayType lbrack len
                                             (ast.Ident eltPos eltName)))
                                    lbrace None rbrace));
                          TextEdit.NewText :=
                            "var " ++ name ++ " " ++ "[]" ++ eltName |} ] |} ] |} ]).
Proof.
  intros Hl Hr. apply (run_func1_match a _ _ _ _ _ _ _ _ _ _ pass Hl Hr).
Qed.

Lemma X11_witness_pair :
  run_func1 (ast.N_AssignStmt (pair_at 1)) (pass_of [])
  = (Returned tt,
     add_reports (pass_of []) [empty_slice_diagnostic 1 25 "a" "int"]).
Proof.
  exact (X11_only_first_target_and_first_value_count (pair_at 1)
           1 "a" [ast.Ident 4 "b"] 9 None 11 "int" 14 15
           [ast.CompositeLit
              (Some (ast.ArrayType 18 None (ast.Ident 20 "int"))) 23 None 24]
           (pass_of []) eq_refl eq_refl).
Defined.

(** X12: whenever the final [run] returns, the first version of [run]
    returns on the same pass and reports the same diagnostics in the same
    order, each without its fix. *)
Theorem X12_runs_agree_when_final_run_returns (pass : analysis.Pass) :
  fst (run pass) = Returned (None, None) ->
  tutorial_run pass
  = (Completed (None, None),
     add_reports pass (map without_fixes (emitted run pass))).
Proof.
  intros Hret.
  destruct (run_spec pass) as (r & Hrun & Hr).
  rewrite (emitted_add_reports _ _ _ _ Hrun).
  rewrite Hrun in Hret. cbn [fst] in Hret. subst r.
  destruct (existsb node_crashes
              (inspector.events (analysis.ResultOf_inspect pass))) eqn:Hsafe.
  { destruct Hr as (err & Hr & _). discriminate Hr. }
  rewrite (before_crash_all _ Hsafe).
  unfold tutorial_run, bind1, from_M, ResultOf_inspect, ret1.
  now rewrite (Preorder_events1_safe _ Hsafe pass).
Qed.

Lemma X12_witness_test_go :
  tutorial_run (pass_of test_go)
  = (Completed (None, None),
     add_reports (pass_of test_go)
       (map without_fixes (emitted run (pass_of test_go)))).
Proof.
  exact (X12_runs_agree_when_final_run_returns (pass_of test_go) eq_refl).
Defined.
